(** * moldr: the Stiefel manifold and projected gradient descent

    A shallow embedding of [manifold_factory.py] and [steepest_descent.py].

    Two views of the numpy code are used:
    - [TypedGeometry]: the matrix algebra of [StiefelManifold.proj] on
      MathComp matrices ['M[R]_(n,p)] over an ordered field [R] (the exact
      real arithmetic the floating-point code approximates).  Shapes are
      fixed by the types; this is the view for properties that take the
      shapes as given.
    - [Numpy]: numpy arrays with their run-time shape, numpy's shape rules
      ([np.dot] alignment, elementwise broadcasting) and Python's
      exceptions, for the operations whose behaviour depends on them. *)

From HB Require Import structures.
From mathcomp Require Import boot order algebra.
From Stdlib Require Import String Ascii Lia.

Set Implicit Arguments.
Unset Strict Implicit.
Unset Printing Implicit Defensive.

Import GRing.Theory Num.Theory.
Local Open Scope ring_scope.

(* ------------------------------------------------------------------ *)
(** ** The matrix algebra of [StiefelManifold.proj] *)

Module TypedGeometry.
Section Proj.

Variable R : realFieldType.
Variables n p : nat.
Implicit Types X U : 'M[R]_(n, p).

(** [skew_XTU = 0.5 * (np.dot(X.T,U) - np.dot(U.T,X))]
    (manifold_factory.py:58). *)
Definition skew_XTU X U : 'M[R]_p := 2^-1 *: (X^T *m U - U^T *m X).

(** [StiefelManifold.proj(self, X, U)] (manifold_factory.py:55-61):
    [XXT = np.dot(X,X.T)], [I = np.eye(len(XXT))] (the n-by-n identity),
    result [np.dot(X,skew_XTU) + np.dot(I - XXT,U)]. *)
Definition proj X U : 'M[R]_(n, p) :=
  let XXT := X *m X^T in
  let I := (1%:M : 'M[R]_n) in
  X *m skew_XTU X U + (I - XXT) *m U.

(** [tangent] and [egrad2rgrad] (manifold_factory.py:63-67) call [proj]. *)
Definition tangent X U := proj X U.
Definition egrad2rgrad X U := proj X U.

(** The membership condition of a point: [X^T X = I_p] exactly. *)
Definition orthonormal X : Prop := X^T *m X = 1%:M.

End Proj.

(** The 3-by-2 point [[1,0],[0,1],[0,0]] and a direction of ones. *)
Definition X32 : 'M[rat]_(2 + 1, 2) := col_mx 1%:M 0.
Definition U32 : 'M[rat]_(2 + 1, 2) := const_mx 1.

End TypedGeometry.

(* ------------------------------------------------------------------ *)
(** ** numpy arrays, Python exceptions and the manifold classes *)

Module Numpy.

Local Open Scope string_scope.
Local Open Scope ring_scope.

(** The Python exceptions the modelled code can raise. *)
Inductive exn :=
| NameError | ValueError | TypeError | AttributeError
| NotImplementedError | IndentationError.

(** A Python call either returns a value or raises. *)
Inductive result (A : Type) := Ok of A | Raise of exn.
Arguments Ok {A} _.
Arguments Raise {A} _.

Definition bind {A B} (c : result A) (k : A -> result B) : result B :=
  match c with Ok a => k a | Raise e => Raise e end.

Notation "x <- c ;; k" := (bind c (fun x => k))
  (at level 61, c at next level, right associativity).


(** Python values, as far as name lookup needs them. *)
Inductive pyval := PyNone | PyInt of int | PyObject.

(** A scope: the names bound in it ([LOAD_NAME]: locals, then the module
    globals; none of the modelled code shadows a builtin). *)
Definition scope := list (string * pyval).

Fixpoint lookup (env : scope) (x : string) : result pyval :=
  match env with
  | [::] => Raise NameError
  | (y, v) :: env' => if String.eqb x y then Ok v else lookup env' x
  end.

(** The module globals of manifold_factory.py (lines 1-84). *)
Definition manifold_factory_globals : scope :=
  [:: ("__author__", PyObject); ("np", PyObject); ("npr", PyObject);
      ("sign", PyObject); ("Manifold", PyObject);
      ("StiefelManifold", PyObject); ("GrassmannManifold", PyObject)].

(** The top-level names of the numpy namespace that the module uses
    ([np.dot], [np.eye], ...).  [norm] lives in [np.linalg], not at the top
    level. *)
Definition numpy_toplevel : list string :=
  [:: "dot"; "eye"; "sqrt"; "diag"; "allclose"; "linalg"; "random"; "mean"].

Definition np_has (name : string) : bool :=
  List.existsb (String.eqb name) numpy_toplevel.

Section Arrays.

Variable R : rcfType.

(** A 2-D numpy array: its shape and its entries. *)
Record ndarray := NDArray { nrows : nat; ncols : nat; ent : nat -> nat -> R }.

Definition shape (A : ndarray) : nat * nat := (nrows A, ncols A).

(** [A.T] *)
Definition transpose (A : ndarray) : ndarray :=
  NDArray (ncols A) (nrows A) (fun i j => ent A j i).

(** [np.dot(A, B)] on 2-D arrays is the matrix product; it raises
    [ValueError] when the inner dimensions are not aligned. *)
Definition dot (A B : ndarray) : result ndarray :=
  if ncols A == nrows B then
    Ok (NDArray (nrows A) (ncols B)
          (fun i j => \sum_(k < ncols A) ent A i k * ent B k j))
  else Raise ValueError.

(** numpy broadcasting of one dimension: equal, or one of them is 1. *)
Definition bdim (a b : nat) : option nat :=
  if a == b then Some a
  else if a == 1%N then Some b
  else if b == 1%N then Some a
  else None.

Definition bshape (A B : ndarray) : option (nat * nat) :=
  match bdim (nrows A) (nrows B), bdim (ncols A) (ncols B) with
  | Some r, Some c => Some (r, c)
  | _, _ => None
  end.

(** The entry of [A] seen through broadcasting (a dimension of size 1 is
    repeated). *)
Definition bget (A : ndarray) (i j : nat) : R :=
  ent A (if nrows A == 1%N then 0%N else i) (if ncols A == 1%N then 0%N else j).

(** An elementwise binary operator with broadcasting ([A * B], [A + B],
    [A - B]); shapes that do not broadcast raise [ValueError]. *)
Definition elementwise (f : R -> R -> R) (A B : ndarray) : result ndarray :=
  match bshape A B with
  | Some (r, c) => Ok (NDArray r c (fun i j => f (bget A i j) (bget B i j)))
  | None => Raise ValueError
  end.

Definition mul := elementwise (fun a b => a * b).
Definition add := elementwise (fun a b => a + b).

(** [t*U] for a scalar [t]. *)
Definition scale (t : R) (A : ndarray) : ndarray :=
  NDArray (nrows A) (ncols A) (fun i j => t * ent A i j).

(** [np.eye(k)] *)
Definition eye (k : nat) : ndarray :=
  NDArray k k (fun i j => (i == j)%:R).

(** [np.diag(A)] of a 2-D array: its main diagonal, a 1-D array. *)
Definition diag (A : ndarray) : seq R :=
  [seq ent A i i | i <- iota 0 (minn (nrows A) (ncols A))].

(** [np.diag(v)] of a 1-D array: the square diagonal matrix. *)
Definition diagflat (v : seq R) : ndarray :=
  NDArray (size v) (size v) (fun i j => if i == j then nth 0 v i else 0).

(** [np.allclose(A, B)] with numpy's default [rtol = 1e-5], [atol = 1e-8]:
    [|a - b| <= atol + rtol * |b|] at every entry, after broadcasting. *)
Definition rtol : R := (10 ^+ 5)^-1.
Definition atol : R := (10 ^+ 8)^-1.

Definition allclose (A B : ndarray) : result bool :=
  match bshape A B with
  | Some (r, c) =>
      Ok (all (fun i => all (fun j =>
             `|bget A i j - bget B i j| <= atol + rtol * `|bget B i j|)
             (iota 0 c)) (iota 0 r))
  | None => Raise ValueError
  end.

(** Modelled from the spec: [utils.sign], imported by manifold_factory.py
    from a [utils] module that is not part of the sources; the spec
    describes it as the sign function, returning -1, 0 or +1 according to
    the sign of its input, applied elementwise to arrays. *)
Definition sign (x : R) : R :=
  if 0 < x then 1 else if x < 0 then -1 else 0.

(** [sign(sign(np.diag(R))+0.5)] (manifold_factory.py:72): the sign
    correction of the QR factor [Rf], one entry per diagonal entry. *)
Definition sign_correction (Rf : ndarray) : seq R :=
  [seq sign (s + 2^-1) | s <- [seq sign d | d <- diag Rf]].

(** [np.linalg.qr(Y)] in its default reduced mode: [Q] is (m, k) and [R] is
    (k, n) with [k = min(m, n)].  The entries are those LAPACK computes;
    they are left as parameters [qrQ], [qrR]. *)
Variables qrQ qrR : ndarray -> nat -> nat -> R.

Definition qr (Y : ndarray) : ndarray * ndarray :=
  let k := minn (nrows Y) (ncols Y) in
  (NDArray (nrows Y) k (qrQ Y), NDArray k (ncols Y) (qrR Y)).

(** A [StiefelManifold] instance: the attributes set by [__init__]. *)
Record stiefel := Stiefel {
  st_n : int;
  st_p : int;
  st_dim : R;
  typical_distance : R
}.

(** [StiefelManifold.__init__(self, n, p)] (manifold_factory.py:40-44):
    [dim = n*p - 0.5*(p*(p+1))], [typical_distance = np.sqrt(p)]; no check
    on [n] or [p]. *)
Definition StiefelManifold (n p : int) : stiefel :=
  Stiefel n p ((n * p)%:~R - 2^-1 * (p * (p + 1))%:~R) (Num.sqrt p%:~R).

(** [StiefelManifold.inner(self, d1, d2)]: [np.dot(d1, d2)]. *)
Definition inner (self : stiefel) (d1 d2 : ndarray) : result ndarray :=
  dot d1 d2.

(** [StiefelManifold.norm(self, d)]: [np.norm(d)].  The attribute lookup
    [np.norm] comes first; were it found, the call would be the Frobenius
    norm. *)
Definition norm (self : stiefel) (d : ndarray) : result R :=
  if np_has "norm" then
    Ok (Num.sqrt (\sum_(i < nrows d) \sum_(j < ncols d) ent d i j ^+ 2))
  else Raise AttributeError.

(** [StiefelManifold.retraction(self, X, U, t)] (manifold_factory.py:69-72):
    [Y = X + t*U]; [Q,R = np.linalg.qr(Y)];
    [return Q * np.diag(sign(sign(np.diag(R))+0.5))], where [*] is numpy's
    elementwise product. *)
Definition retraction (self : stiefel) (X U : ndarray) (t : R)
    : result ndarray :=
  Y <- add X (scale t U) ;;
  let (Q, Rf) := qr Y in
  mul Q (diagflat (sign_correction Rf)).

(** The names visible in the body of [point_on_manifold]: its arguments,
    then the module globals. *)
Definition point_on_manifold_scope : scope :=
  ("self", PyObject) :: ("X", PyObject) :: manifold_factory_globals.

(** [StiefelManifold.point_on_manifold(self, X)]
    (manifold_factory.py:74-78):
    [if X.shape == (self.n,self.p) and np.allclose(X.T.dot(X),np.eye(p))].
    The [and] evaluates its right operand only when the shapes agree; that
    operand reads the name [p]. *)
Definition point_on_manifold (self : stiefel) (X : ndarray) : result bool :=
  if ((Posz (nrows X), Posz (ncols X)) == (st_n self, st_p self)) then
    pv <- lookup point_on_manifold_scope "p" ;;
    match pv with
    | PyInt k =>
        if (0 <= k)%R then
          XtX <- dot (transpose X) X ;; allclose XtX (eye `|k|%N)
        else Raise ValueError
    | _ => Raise TypeError
    end
  else Ok false.

(** Arrays used in the proofs.  The point [[1,0],[0,1],[0,0]] (n = 3,
    p = 2). *)
Definition A32 : ndarray := NDArray 3 2 (fun i j => (i == j)%:R).

(** The padded identity [[1,0],[0,1],[0,0],[0,0]] (n = 4, p = 2). *)
Definition A42 : ndarray := NDArray 4 2 (fun i j => (i == j)%:R).

(** The column [[1],[0]]. *)
Definition A21 : ndarray := NDArray 2 1 (fun i _ => (i == 0%N)%:R).

(** The 1-by-1 point [[1]]. *)
Definition A11 : ndarray := NDArray 1 1 (fun _ _ => 1).

End Arrays.

Arguments A32 {R}.
Arguments A42 {R}.
Arguments A21 {R}.
Arguments A11 {R}.

(** The base class [Manifold] and the placeholder [GrassmannManifold]
    (manifold_factory.py:19-33, 80-83): an instance is its class and its
    [dim] attribute, when it has one. *)
Inductive cls := CManifold | CGrassmann.

Record pyobj := PyObj { cls_of : cls; dim_attr : option pyval }.

(** [Manifold.__init__]: [self.dim = None]. *)
Definition Manifold : pyobj := PyObj CManifold (Some PyNone).

(** [GrassmannManifold.__init__]: sets [self.implemented_ = False] and does
    not call [Manifold.__init__], so the instance has no [dim]. *)
Definition GrassmannManifold : pyobj := PyObj CGrassmann None.

(** [Manifold.proj(self, X)]: [raise NotImplementedError]; the Grassmann
    class inherits it. *)
Definition proj (self : pyobj) (X : pyval) : result pyval :=
  Raise NotImplementedError.

(** [Manifold.point_on_manifold(self, X)]: [raise NotImplementedError];
    inherited by the Grassmann class. *)
Definition point_on_manifold_base (self : pyobj) (X : pyval) : result bool :=
  Raise NotImplementedError.

(** [self.dim]: [AttributeError] when the instance has no such attribute. *)
Definition get_dim (self : pyobj) : result pyval :=
  match dim_attr self with Some v => Ok v | None => Raise AttributeError end.

(** [npr.randn(d)]: a dimension must be a non-negative integer; [None] (or
    any other object) raises [TypeError]. *)
Definition randn (d : pyval) : result pyval :=
  match d with
  | PyInt k => if (0 <= k)%R then Ok PyObject else Raise ValueError
  | _ => Raise TypeError
  end.

(** [Manifold.random_vec(self)]: [return self.proj(npr.randn(self.dim))];
    inherited by the Grassmann class. *)
Definition random_vec (self : pyobj) : result pyval :=
  d <- get_dim self ;;
  v <- randn d ;;
  proj self v.

End Numpy.

(* ------------------------------------------------------------------ *)
(** ** steepest_descent.py as the Python compiler reads it *)

Module SteepestDescent.
Import Numpy.

Local Open Scope string_scope.

(** The logical lines of steepest_descent.py that carry tokens, with the
    indentation of their first physical line and their text.  Blank lines
    and comment-only lines (17-19, 21-22, 28-29, 31-40, 45-47) produce no
    token; the physical lines 4-8 (a triple-quoted string), 11-12 (inside
    parentheses) and 13-14 (a triple-quoted string) are each one logical
    line. *)
Definition steepest_descent_lines : list (nat * string) :=
  [:: (0, "__author__ = 'Josh Fass'");
      (0, "''' Implementation of projected gradient descent ... '''");
      (0, "def proj_grad_descent(init_point,manifold,obj_func, convergence_threshold=0.1,max_iter=100):");
      (4, "''' perform projected gradient descent on the provided manifold until convergence or timeout'''");
      (4, "obj_grad = grad(obj_func)");
      (4, "M = init_point");
      (4, "converged = False");
      (4, "timed_out=False");
      (4, "n_iter = 0");
      (4, "while (not converged) and (not timed_out):");
      (8, "old_M = M");
      (8, "free_grad = obj_grad(M)");
      (8, "n_iter += 1");
      (8, "if n_iter >= max_iter:");
      (8, "if np.mean((new_M - old_M)**2) < thresh:");
      (12, "converged = True")].

(** A logical line that ends in [:] opens a block (a compound statement
    header). *)
Definition opens_block (txt : string) : bool :=
  match String.get (String.length txt - 1) txt with
  | Some c => Ascii.eqb c ":"%char
  | None => false
  end.

(** Pops the indentation levels above a dedented line. *)
Fixpoint drop_while (f : nat -> bool) (s : list nat) : list nat :=
  match s with
  | [::] => [::]
  | x :: s' => if f x then drop_while f s' else s
  end.

(** Python's tokenizer and parser on indentation, with the stack of open
    indentation levels: after a block header the next line must be
    indented deeper (else "expected an indented block"); otherwise a line
    keeps the current level or returns to an enclosing one (else
    "unexpected indent" or "unindent does not match"). *)
Fixpoint check_indent (stack : list nat) (expect : bool)
    (ls : list (nat * string)) : result unit :=
  match ls with
  | [::] => if expect then Raise IndentationError else Ok tt
  | (ind, txt) :: rest =>
      let top := head 0%N stack in
      if expect then
        if (top < ind)%N then check_indent (ind :: stack) (opens_block txt) rest
        else Raise IndentationError
      else if ind == top then check_indent stack (opens_block txt) rest
      else if (top < ind)%N then Raise IndentationError
      else
        match drop_while (fun l => (ind < l)%N) stack with
        | l :: st =>
            if l == ind then check_indent (l :: st) (opens_block txt) rest
            else Raise IndentationError
        | [::] => Raise IndentationError
        end
  end.

(** [import steepest_descent] (or running the file): the module is compiled
    first; [proj_grad_descent] exists only when it compiles. *)
Definition import_steepest_descent : result unit :=
  check_indent [:: 0%N] false steepest_descent_lines.

End SteepestDescent.

(* ------------------------------------------------------------------ *)
(** ** Proofs: the algebra of [proj] *)

Module TypedGeometryFacts.
Import TypedGeometry.

Section Proj.

Variable R : realFieldType.
Variables n p : nat.
Implicit Types X U : 'M[R]_(n, p).

Lemma skew_XTU_tr X U : (skew_XTU X U)^T = - skew_XTU X U.
Proof.
rewrite /skew_XTU linearZ /= linearB /= !trmx_mul !trmxK.
by rewrite -scalerN opprB.
Qed.

Lemma tr_mul_swap X (T : 'M[R]_(n, p)) : T^T *m X = (X^T *m T)^T.
Proof. by rewrite trmx_mul trmxK. Qed.

Section OnManifold.
Variable X : 'M[R]_(n, p).
Hypothesis HX : orthonormal X.

Lemma XT_XXT : X^T *m (1%:M - X *m X^T) = 0.
Proof. by rewrite mulmxBr mulmx1 mulmxA HX mul1mx subrr. Qed.

Lemma XXT_X : (1%:M - X *m X^T) *m X = 0.
Proof. by rewrite mulmxBl mul1mx -mulmxA HX mulmx1 subrr. Qed.

Lemma XXT_idem : (1%:M - X *m X^T) *m (1%:M - X *m X^T) = 1%:M - X *m X^T.
Proof.
rewrite [in LHS]mulmxBl mul1mx -mulmxA.
by rewrite [X^T *m _]XT_XXT mulmx0 subr0.
Qed.

Lemma XT_proj U : X^T *m proj X U = skew_XTU X U.
Proof.
rewrite /proj mulmxDr mulmxA HX mul1mx.
by rewrite mulmxA XT_XXT mul0mx addr0.
Qed.

Lemma skew_XTU_proj U : skew_XTU X (proj X U) = skew_XTU X U.
Proof.
rewrite {1}/skew_XTU (tr_mul_swap X (proj X U)) XT_proj skew_XTU_tr opprK.
rewrite -mulr2n -scaler_nat scalerA mulVf ?scale1r //.
by rewrite pnatr_eq0.
Qed.

End OnManifold.

(** C2: for a point X on the manifold and any ambient U, T = proj(X,U)
    satisfies X^T T + T^T X = 0 (X^T T is skew-symmetric). *)
Theorem proj_tangent_skew X U (HX : orthonormal X) :
  let T := proj X U in X^T *m T + T^T *m X = 0.
Proof. by move=> T; rewrite (tr_mul_swap X T) /T XT_proj // skew_XTU_tr addrN. Qed.

(** C10: the tangent projection is idempotent at a point X with
    X^T X = I_p: proj(X, proj(X, U)) = proj(X, U). *)
Theorem proj_idempotent X U (HX : orthonormal X) :
  proj X (proj X U) = proj X U.
Proof.
rewrite {1}/proj /= skew_XTU_proj // mulmxDr mulmxA XXT_X // mul0mx add0r.
by rewrite mulmxA XXT_idem.
Qed.

End Proj.


Lemma X32_orthonormal : orthonormal X32.
Proof.
by rewrite /orthonormal /X32 tr_col_mx mul_row_col trmx1 trmx0 mul1mx mul0mx addr0.
Defined.

Lemma proj_tangent_skew_witness :
  orthonormal X32 /\
  (let T := proj X32 U32 in X32^T *m T + T^T *m X32 = 0).
Proof. split; [exact X32_orthonormal | exact (proj_tangent_skew U32 X32_orthonormal)]. Defined.

Lemma proj_idempotent_witness :
  orthonormal X32 /\ proj X32 (proj X32 U32) = proj X32 U32.
Proof. split; [exact X32_orthonormal | exact (proj_idempotent U32 X32_orthonormal)]. Defined.

End TypedGeometryFacts.

(* ------------------------------------------------------------------ *)
(** ** Proofs: the numpy view *)

Module NumpyFacts.
Import Numpy.

Local Open Scope ring_scope.

Section Arrays.
Variable R : rcfType.
Variables qrQ qrR : ndarray R -> nat -> nat -> R.

(** Whatever entries LAPACK returns, for n = 3, p = 2 the reduced QR gives
    Q of shape (3,2) and the sign matrix has shape (2,2): their elementwise
    product does not broadcast. *)
Lemma retraction_3_2 (U : nat -> nat -> R) (t : R) :
  retraction qrQ qrR (StiefelManifold R 3 2) A32 (NDArray 3 2 U) t
  = Raise ValueError.
Proof. reflexivity. Qed.

(** For p = 1 the sign matrix is 1-by-1 and broadcasts: the retraction
    returns an n-by-1 array. *)
Lemma retraction_1_1_shape (U : nat -> nat -> R) (t : R) :
  exists Q, retraction qrQ qrR (StiefelManifold R 1 1) A11 (NDArray 1 1 U) t
            = Ok Q /\ shape Q = (1%N, 1%N).
Proof. by eexists; split; [reflexivity|]. Qed.

(** The shape test comes first: a wrongly shaped array gives [False]. *)
Lemma point_on_manifold_wrong_shape (self : stiefel R) (M : ndarray R) :
  (Posz (nrows M), Posz (ncols M)) != (st_n self, st_p self) ->
  point_on_manifold self M = Ok false.
Proof. by rewrite /point_on_manifold => /negbTE ->. Qed.

(** Once the shape matches, reading [p] fails. *)
Lemma point_on_manifold_not_true (self : stiefel R) (M : ndarray R) :
  point_on_manifold self M <> Ok true.
Proof. by rewrite /point_on_manifold; case: ifP. Qed.

(** C1: the claim that every retraction of a point on the manifold
    satisfies [point_on_manifold] fails: for n = 3, p = 2, the point
    [[1,0],[0,1],[0,0]], any direction and any step, [retraction] raises
    [ValueError] (the elementwise [*] of a (3,2) and a (2,2) array), and
    [point_on_manifold] never returns [True] on any array. *)
Theorem retraction_never_on_manifold (U : nat -> nat -> R) (t : R) :
  retraction qrQ qrR (StiefelManifold R 3 2) A32 (NDArray 3 2 U) t
    = Raise ValueError /\
  (forall (self : stiefel R) (M : ndarray R), point_on_manifold self M <> Ok true).
Proof. by split; [exact: retraction_3_2 | exact: point_on_manifold_not_true]. Qed.

(** C3: the claim that [retraction(X, U, 0.0)] returns X fails: at the
    point [[1,0],[0,1],[0,0]] with any direction of shape (3,2) and
    [t = 0], [retraction] raises [ValueError]. *)
Theorem retraction_at_zero_raises (U : nat -> nat -> R) :
  retraction qrQ qrR (StiefelManifold R 3 2) A32 (NDArray 3 2 U) 0
    = Raise ValueError.
Proof. exact: retraction_3_2. Qed.

(** C5: for n = 4, p = 2 and the padded identity, [point_on_manifold]
    does not return [True]: the shapes agree, and the name [p] in
    [np.eye(p)] is unbound, so the call raises [NameError]. *)
Theorem point_on_manifold_padded_identity :
  point_on_manifold (StiefelManifold R 4 2) A42 = Raise NameError.
Proof. reflexivity. Qed.

(** C6: the sign correction [sign(sign(R_ii) + 0.5)] is +1 at every
    diagonal entry [R_ii = 0] and the sign of [R_ii] at every other one. *)
Theorem sign_correction_canonical (Rf : ndarray R) :
  sign_correction Rf = [seq (if d == 0 then 1 else sign d) | d <- diag Rf].
Proof.
rewrite /sign_correction -map_comp; apply: eq_map => d /=.
have h2 : (0 : R) < 2^-1 by rewrite invr_gt0 ltr0n.
have h1 : (2^-1 : R) < 1 by rewrite invf_lt1 ?ltr0n // ltr1n.
have hn : (-1 + 2^-1 : R) < 0 by rewrite addrC subr_lt0.
rewrite /sign; case: (ltrgt0P d) => [_|_|_] /=.
- by rewrite addr_gt0 ?ltr01.
- by rewrite (Order.POrderTheory.lt_gtF hn) hn.
- by rewrite add0r h2.
Qed.

(** C7: the claim that [norm(d)] is the square root of [inner(d,d)], a
    scalar, fails: [norm] raises [AttributeError] on every array (numpy has
    no top-level [norm]), and [inner] on the 2-by-1 column [[1],[0]] with
    itself raises [ValueError] ([np.dot] of 2-D arrays is the matrix
    product). *)
Theorem norm_and_inner_fail (self : stiefel R) :
  (forall d : ndarray R, norm self d = Raise AttributeError) /\
  inner self A21 A21 = Raise ValueError.
Proof. by split. Qed.

(** C8: [StiefelManifold(5,2).dim] is 7, and for any integers n, p the
    constructor sets [dim = n*p - 0.5*(p*(p+1))] and
    [typical_distance = sqrt(p)], with no check on n or p. *)
Theorem stiefel_dim (n p : int) :
  st_dim (StiefelManifold R 5 2) = 7 /\
  st_dim (StiefelManifold R n p) = (n * p)%:~R - 2^-1 * (p * (p + 1))%:~R /\
  typical_distance (StiefelManifold R n p) = Num.sqrt p%:~R.
Proof.
split; last by [].
rewrite /=.
have -> : ((2 * (2 + 1))%:~R : R) = 2 * 3 by rewrite -natrM.
rewrite mulrA mulVf ?pnatr_eq0 // mul1r.
by rewrite -natrB.
Qed.

End Arrays.

(** C9 (as the code has it): [proj] and [point_on_manifold] raise
    [NotImplementedError] on the base [Manifold] and on the
    [GrassmannManifold] placeholder; [random_vec] on the placeholder raises
    [AttributeError], since the instance has no [dim]. *)
Theorem abstract_interface_errors (X : pyval) :
  proj Manifold X = Raise NotImplementedError /\
  point_on_manifold_base Manifold X = Raise NotImplementedError /\
  proj GrassmannManifold X = Raise NotImplementedError /\
  point_on_manifold_base GrassmannManifold X = Raise NotImplementedError /\
  random_vec GrassmannManifold = Raise AttributeError.
Proof. by []. Qed.

(** C9 fails for [random_vec] on the Grassmann placeholder: the call
    raises [AttributeError], not [NotImplementedError]. *)
Lemma grassmann_random_vec_not_notimplemented :
  random_vec GrassmannManifold = Raise AttributeError.
Proof. reflexivity. Qed.

(** With [Manifold.__init__] run, [random_vec] still does not reach
    [proj]: [npr.randn(None)] raises [TypeError]. *)
Lemma manifold_random_vec : random_vec Manifold = Raise TypeError.
Proof. reflexivity. Qed.

End NumpyFacts.

(* ------------------------------------------------------------------ *)
(** ** Proofs: steepest_descent.py *)

Module SteepestDescentFacts.
Import Numpy SteepestDescent.

Local Open Scope string_scope.

(** The checker accepts the file once the timeout branch has a body. *)
Example check_indent_with_body :
  check_indent [:: 0%N] false
    (take 14 steepest_descent_lines ++ (12%N, "timed_out = True")
       :: drop 14 steepest_descent_lines) = Ok tt.
Proof. reflexivity. Qed.

(** C4: [proj_grad_descent] never returns [(M, TIMED_OUT)]: the header
    [if n_iter >= max_iter:] (line 42) is followed by a line at the same
    indentation, so compiling steepest_descent.py raises
    [IndentationError] and the function is never defined. *)
Theorem import_steepest_descent_fails :
  import_steepest_descent = Raise IndentationError.
Proof. reflexivity. Qed.

End SteepestDescentFacts.

Module TypedGeometryExtra.
Import TypedGeometry TypedGeometryFacts.

Section Proj.
Variable R : realFieldType.
Variables n p : nat.
Implicit Types X U V : 'M[R]_(n, p).

Lemma half_twice (A : 'M[R]_p) : 2^-1 *: A + 2^-1 *: A = A.
Proof.
by rewrite -scalerDl -mulr2n -[_ *+ 2]mulr_natr mulVf ?scale1r // pnatr_eq0.
Qed.

Lemma skew_XTU_linear X U V (a : R) :
  skew_XTU X (a *: U + V) = a *: skew_XTU X U + skew_XTU X V.
Proof.
rewrite /skew_XTU mulmxDr -scalemxAr [(_ + _)^T]linearD /= [(_ *: U)^T]linearZ /= mulmxDl -scalemxAl.
rewrite scalerA mulrC -scalerA -scalerDr; congr (_ *: _).
by rewrite scalerBr opprD addrACA.
Qed.

(** [proj X] is linear in the direction: proj(X, a U + V) = a proj(X, U) + proj(X, V). *)
Theorem proj_linear X U V (a : R) :
  proj X (a *: U + V) = a *: proj X U + proj X V.
Proof.
rewrite /proj /= skew_XTU_linear mulmxDr -scalemxAr mulmxDr -scalemxAr.
by rewrite scalerDr addrACA.
Qed.

Lemma proj_sym_form X U :
  proj X U = U - X *m (2^-1 *: (X^T *m U + U^T *m X)).
Proof.
rewrite /proj /skew_XTU /= mulmxBl mul1mx -mulmxA.
set A := X^T *m U; set B := U^T *m X.
have hA : A = 2^-1 *: (A - B) + 2^-1 *: (A + B).
  by rewrite -scalerDr addrACA addNr addr0 scalerDr half_twice.
rewrite {2}hA mulmxDr opprD addrCA.
by rewrite (addrA (X *m _)) subrr add0r.
Qed.

(** [proj] computes Manopt's Stiefel projection U - X sym(X^T U), with
    sym(A) = (A + A^T)/2, at every X (orthonormal or not). *)
Theorem proj_manopt X U :
  proj X U = U - X *m (2^-1 *: (X^T *m U + U^T *m X)).
Proof. exact: proj_sym_form. Qed.

(** At a point X on the manifold, [proj] sends X itself to 0. *)
Theorem proj_normal X (HX : orthonormal X) : proj X X = 0.
Proof.
rewrite /proj /skew_XTU /= subrr scaler0 mulmx0 add0r.
exact: XXT_X.
Qed.

(** At a point X on the manifold, [proj] leaves T unchanged exactly when
    X^T T is skew-symmetric (T is a tangent vector). *)
Theorem proj_fixes_iff X T (HX : orthonormal X) :
  proj X T = T <-> X^T *m T + T^T *m X = 0.
Proof.
split.
- move=> H.
  have : X^T *m proj X T + (proj X T)^T *m X = 0.
    by rewrite (tr_mul_swap X (proj X T)) XT_proj // skew_XTU_tr addrN.
  by rewrite H.
- move=> /eqP; rewrite addrC addr_eq0 => /eqP HT.
  rewrite /proj /skew_XTU /= HT opprK scalerDr half_twice.
  by rewrite mulmxBl mul1mx mulmxA addrCA subrr addr0.
Qed.

(** [proj X] is self-adjoint for the Frobenius inner product
    tr(V^T W), at every X. *)
Theorem proj_self_adjoint X U V :
  \tr (V^T *m proj X U) = \tr ((proj X V)^T *m U).
Proof.
rewrite !proj_sym_form mulmxBr linearB /= [(V - _)^T]linearB /= mulmxBl linearB /=.
congr (_ - _).
rewrite (tr_mul_swap X U) (tr_mul_swap X V).
set A := X^T *m U; set B := X^T *m V.
rewrite mulmxA (tr_mul_swap X V) -/B trmx_mul -mulmxA -/A.
rewrite -scalemxAr [(2^-1 *: _)^T]linearZ /= -scalemxAl !mxtraceZ; congr (_ * _).
rewrite [(B + _)^T]linearD /= trmxK mulmxDr mulmxDl !mxtraceD; congr (_ + _).
by rewrite -trmx_mul mxtrace_tr mxtrace_mulC.
Qed.
End Proj.

Lemma proj_normal_witness : orthonormal X32 /\ proj X32 X32 = 0.
Proof. split; [exact X32_orthonormal | exact (proj_normal X32_orthonormal)]. Defined.

Lemma proj_fixes_iff_witness :
  orthonormal X32 /\
  (proj X32 U32 = U32 <-> X32^T *m U32 + U32^T *m X32 = 0).
Proof. split; [exact X32_orthonormal | exact (proj_fixes_iff U32 X32_orthonormal)]. Defined.

End TypedGeometryExtra.

Module NumpyExtra.
Import Numpy.

Local Open Scope ring_scope.

Section Arrays.
Variable R : rcfType.
Variables qrQ qrR : ndarray R -> nat -> nat -> R.

Lemma size_sign_correction (Rf : ndarray R) :
  size (sign_correction Rf) = minn (nrows Rf) (ncols Rf).
Proof. by rewrite /sign_correction /diag !size_map size_iota. Qed.


(** For square X and U (n = p), [retraction] returns an n-by-n array whose
    off-diagonal entries are all 0, whatever the QR entries and the step. *)
Theorem retraction_square_diagonal (self : stiefel R) (n : nat) (x u : nat -> nat -> R) (t : R) :
  exists M, retraction qrQ qrR self (NDArray n n x) (NDArray n n u) t = Ok M /\
    shape M = (n, n) /\
    (forall i j, (i < n)%N -> (j < n)%N -> i != j -> ent M i j = 0).
Proof.
rewrite /retraction /add /elementwise /bshape /bdim /= !eqxx /=.
rewrite /mul /elementwise /bshape /bdim /= size_sign_correction /= -minnA !minnn !eqxx /=.
eexists; split; [reflexivity|split; [by []|]].
move=> i j hi hj hij /=.
rewrite /bget /=.
case: eqP => [n1|_].
- by move: hi hj hij; rewrite n1 !ltnS !leqn0 => /eqP -> /eqP ->.
- by rewrite (negbTE hij) mulr0.
Qed.

(** [point_on_manifold] returns [False] on every array of the wrong shape
    and raises [NameError] on every array of the right shape. *)
Theorem point_on_manifold_cases (self : stiefel R) (M : ndarray R) :
  point_on_manifold self M =
  if (Posz (nrows M), Posz (ncols M)) == (st_n self, st_p self)
  then Raise NameError else Ok false.
Proof. by rewrite /point_on_manifold; case: ifP. Qed.


Lemma triangle_double (p : nat) : (p * p.+1 = ((p * p.+1)./2).*2)%N.
Proof. by rewrite -[LHS]odd_double_half oddM oddS andbN add0n. Qed.

Lemma triangle_le (n p : nat) : (p <= n)%N -> ((p * p.+1)./2 <= n * p)%N.
Proof.
move=> Hp; rewrite -leq_double -triangle_double -addnn -mulnDl.
rewrite [in X in (_ <= X)%N]mulnC leq_mul2l.
case: p Hp => [|p'] Hp //=.
by rewrite -addn1 (leq_add Hp) // (leq_trans _ Hp).
Qed.

Lemma stiefel_dim_nat (n p : nat) (Hpn : (p <= n)%N) :
  st_dim (StiefelManifold R n p) = (n * p - (p * p.+1)./2)%:R.
Proof.
rewrite /= (_ : (p%:Z + 1)%R = (p + 1)%N%:Z) // -!PoszM -!pmulrn addn1.
rewrite natrB ?triangle_le //; congr (_ - _).
rewrite {1}triangle_double -muln2 natrM mulrCA mulVf ?pnatr_eq0 //.
by rewrite mulr1.
Qed.

Lemma triangle_sub (p k : nat) :
  ((p + k) * p - (p * p.+1)./2 = k * p + (p * p.-1)./2)%N.
Proof.
have e1 := triangle_double p.
have e2 : (p * p.-1 = ((p * p.-1)./2).*2)%N.
  by rewrite -[LHS]odd_double_half oddM; case: p {e1} => [|q] //=; rewrite andNb.
have e3 : (p * p.-1 + p = p * p)%N by case: p {e1 e2} => [|q] //=; rewrite -mulnSr.
have e4 : (p * p.+1 = p * p + p)%N by rewrite mulnS addnC.
move: e1 e2 e3 e4; rewrite mulnDl -!muln2.
set t := (p * p.+1)./2; set c := (p * p.-1)./2.
move: (p * p.+1)%N (p * p.-1)%N (p * p)%N (k * p)%N => a b q r.
rewrite -!plusE -!multE -!minusE => e1 e2 e3 e4.
lia.
Qed.

(** For p <= n, written n = p + k, [dim] is the whole number
    k p + p (p - 1) / 2: never negative, never fractional. *)
Theorem stiefel_dim_whole (p k : nat) :
  st_dim (StiefelManifold R (p + k)%N p) = (k * p + (p * p.-1)./2)%:R.
Proof. by rewrite stiefel_dim_nat ?leq_addr // triangle_sub. Qed.

End Arrays.
End NumpyExtra.
